(** * ReacType: marketplace controller and HTML panel item

    A shallow embedding of two parts of the application:

    - the marketplace controller of the server ([publishProject],
      [unpublishProject], [cloneProject]), which keeps project documents in
      a Mongoose collection;
    - the [HTMLItem] panel component of the client, whose click handler
      turns a gesture into an [addChild] action for the local store and an
      [addChildAction] event for the collaboration room.

    JavaScript objects are finite maps from property names to values, the
    collection is a finite map from object ids to documents, and a handler
    is the list of effects it performs, in program order. *)

From stdpp Require Import gmap strings list fin_maps pretty.

Open Scope Z_scope.
Set Warnings "-register-all".

(** ** JavaScript values *)

Module Js.

(** The values that travel in request bodies and in stored documents.
    Numbers are the integral ones (timestamps, counters, ids). *)
Inductive JsVal :=
  | JUndefined
  | JNull
  | JBool (b : bool)
  | JNum (n : Z)
  | JStr (s : string)
  | JArr (l : list JsVal)
  | JObj (o : gmap string JsVal).

Abbreviation JsObj := (gmap string JsVal).

(** [o.k] on a plain object: a missing property reads as [undefined]. *)
Definition get (o : JsObj) (k : string) : JsVal :=
  default JUndefined (o !! k).

(** [String(v)], as a template literal applies it. *)
Fixpoint to_string (v : JsVal) : string :=
  match v with
  | JUndefined => "undefined"
  | JNull => "null"
  | JBool true => "true"
  | JBool false => "false"
  | JNum n => pretty n
  | JStr s => s
  | JArr l =>
      String.concat ","
        (map (fun x => match x with
                       | JUndefined | JNull => ""
                       | _ => to_string x
                       end) l)
  | JObj _ => "[object Object]"
  end.

(** The characters of a string, one string per character. *)
Fixpoint chars (s : string) : list string :=
  match s with
  | EmptyString => []
  | String c s' => String c EmptyString :: chars s'
  end.

(** An array-like seen as an object: its elements under the keys "0", "1", ... *)
Definition indexed (l : list JsVal) : JsObj :=
  list_to_map (imap (fun i x => (pretty (Z.of_nat i), x)) l).

(** Object spread [{ ...v }]: the own enumerable properties of [v]; nothing
    for [undefined], [null], booleans and numbers. *)
Definition spread (v : JsVal) : JsObj :=
  match v with
  | JObj o => o
  | JArr l => indexed l
  | JStr s => indexed (JStr <$> chars s)
  | _ => ∅
  end.

(** The assignment [v.k = x] in module (strict) code. It throws on
    [undefined], [null] and on primitives; on an array it adds a named
    property, which is not an element and is lost when the array is stored. *)
Definition set_prop (v : JsVal) (k : string) (x : JsVal) : option JsVal :=
  match v with
  | JObj o => Some (JObj (<[k := x]> o))
  | JArr l => Some (JArr l)
  | _ => None
  end.

(** Truthiness of a [string | null] selector value: [null] and the empty
    string are falsy. *)
Definition truthy_str (v : option string) : bool :=
  match v with
  | Some s => negb (String.eqb s "")
  | None => false
  end.

End Js.
Export Js.

(** ** The Mongoose collection of projects *)

Module Mongoose.

(** A BSON object id: twelve bytes, read as a number. *)
Definition ObjectId := N.

(** A document: its [_id] and its other fields. [toObject({ minimize: false })]
    yields the same data as a plain object. *)
Record Doc := MkDoc { doc_id : ObjectId; doc_fields : JsObj }.

(** The [Projects] collection, keyed by [_id] (the unique index of MongoDB). *)
Abbreviation Collection := (gmap N JsObj).

Inductive MongooseError := CastError | DuplicateKey.

(** What the driver decides about a value offered as an object id. The
    library (and its version) is not part of the sources, so both functions
    are taken as they come. *)
Class Driver := {
  isValidObjectId : JsVal → bool;
  castObjectId : JsVal → option ObjectId
}.

(** Identifier generation, idealised: the driver never hands out an id that
    is already used in the collection. *)
Definition newObjectId (c : Collection) : ObjectId :=
  map_fold (fun k _ acc => N.max (N.succ k) acc) 0%N c.

(** A query filter [{ _id }] or [{ _id, userId }]. *)
Record Filter := MkFilter {
  f_id : JsVal;
  f_userId : option (option string)
}.

Record Options := MkOptions { upsert : bool; new : bool }.

(** Equality condition on [userId]. An [undefined] condition is sent as
    [null], which matches a null or missing field. *)
Definition userId_matches (o : JsObj) (u : option string) : bool :=
  match u, o !! "userId" with
  | Some s, Some (JStr s') => String.eqb s s'
  | Some _, _ => false
  | None, (None | Some JUndefined | Some JNull) => true
  | None, _ => false
  end.

Definition filter_matches (f : Filter) (o : JsObj) : bool :=
  match f_userId f with
  | Some u => userId_matches o u
  | None => true
  end.

(** The keys of an update whose value is [undefined] are dropped before the
    update is sent: they neither set nor clear a field. *)
Definition defined_value (v : JsVal) : option JsVal :=
  match v with
  | JUndefined => None
  | _ => Some v
  end.

Definition strip_undefined (upd : JsObj) : JsObj := omap defined_value upd.

(** What a field holds after an update that lists it with the value [v]:
    [v], or what it held before when [v] is [undefined]. *)
Definition written (v : JsVal) (old : option JsVal) : option JsVal :=
  match v with
  | JUndefined => old
  | _ => Some v
  end.

(** [Projects.findOne(f)]. The [_id] of the filter is a value to compare
    with, which the driver casts; an object or an array in its place would
    be a query selector, and selectors are not interpreted here. *)
Definition findOne `{Driver} (f : Filter) (c : Collection)
  : MongooseError + option Doc :=
  match castObjectId (f_id f) with
  | None => inl CastError
  | Some i =>
      match c !! i with
      | Some o => inr (if filter_matches f o then Some (MkDoc i o) else None)
      | None => inr None
      end
  end.

(** [Projects.findOneAndUpdate(f, upd, opts)]. An update without operators
    sets the fields it lists with a value other than [undefined] and keeps
    the others. The [_id] of the filter is read as in [findOne]. *)
Definition findOneAndUpdate `{Driver}
    (f : Filter) (upd : JsObj) (opts : Options) (c : Collection)
  : MongooseError + (option Doc * Collection) :=
  match castObjectId (f_id f) with
  | None => inl CastError
  | Some i =>
      match c !! i with
      | Some o =>
          if filter_matches f o then
            let o' := strip_undefined upd ∪ o in
            inr (Some (MkDoc i (if new opts then o' else o)), <[i := o']> c)
          else if upsert opts then inl DuplicateKey
          else inr (None, c)
      | None =>
          if upsert opts then
            let o' := strip_undefined upd in
            inr (if new opts then Some (MkDoc i o') else None, <[i := o']> c)
          else inr (None, c)
      end
  end.

(** [Projects.create(o)]: [o] carries an [_id] of its own or gets a new one. *)
Definition create (oid : option ObjectId) (o : JsObj) (c : Collection)
  : MongooseError + (Doc * Collection) :=
  match oid with
  | Some i =>
      match c !! i with
      | Some _ => inl DuplicateKey
      | None => inr (MkDoc i o, <[i := o]> c)
      end
  | None =>
      let i := newObjectId c in
      inr (MkDoc i o, <[i := o]> c)
  end.

End Mongoose.
Export Mongoose.

(** ** The marketplace controller *)

Module Marketplace.

(** An Express request, as far as the controller reads it. Cookies and
    route parameters are strings. *)
Record Request := MkRequest {
  body : JsObj;
  cookies : gmap string string;
  params : gmap string string
}.

(** [req.cookies.k] and [req.params.k]: a string or [undefined]. *)
Definition str_or_undefined (o : option string) : JsVal :=
  match o with
  | Some s => JStr s
  | None => JUndefined
  end.

(** How a middleware ends: [res.locals.k = d; next()] or [next(error)]. *)
Inductive Outcome :=
  | Next (k : string) (d : option Doc)
  | NextError (err : string).

(** The fields [publishProject] writes, in both of its branches. *)
Definition published_fields (project : JsObj) (createdAt : Z)
    (comments name userId username : JsVal) : JsObj :=
  <["project" := JObj project]>
  (<["createdAt" := JNum createdAt]>
  (<["published" := JBool true]>
  (<["comments" := comments]>
  (<["name" := name]>
  (<["userId" := userId]>
  (<["username" := username]> ∅)))))).

Section Controller.
Context `{Driver}.

(** [publishProject]; [now] is the value of [Date.now()]. *)
Definition publishProject (now : Z) (req : Request) (c : Collection)
  : Outcome * Collection :=
  let _id := get (body req) "_id" in
  let project := get (body req) "project" in
  let comments := get (body req) "comments" in
  let name := get (body req) "name" in
  let username := str_or_undefined (cookies req !! "username") in
  let userId := str_or_undefined (cookies req !! "ssid") in
  let createdAt := now in
  if isValidObjectId _id then
    let noPub := delete "_id" (delete "published" (spread project)) in
    match findOneAndUpdate
            (MkFilter _id None)
            (published_fields noPub createdAt comments name userId username)
            (MkOptions true true) c with
    | inr (publishedProject, c') => (Next "publishedProject" publishedProject, c')
    | inl _ =>
        (NextError "Error in marketplaceController.publishProject, check server logs for details", c)
    end
  else
    let noId := delete "published" (delete "_id" (spread project)) in
    match create None
            (published_fields noId createdAt comments name userId username) c with
    | inr (publishedProject, c') =>
        (Next "publishedProject" (Some publishedProject), c')
    | inl _ =>
        (NextError "Error in marketplaceController.publishProject, check server logs for details", c)
    end.

(** [unpublishProject]; the outcome is the one of the query's callback. *)
Definition unpublishProject (req : Request) (c : Collection)
  : Outcome * Collection :=
  let _id := get (body req) "_id" in
  let userId := cookies req !! "ssid" in
  match findOneAndUpdate
          (MkFilter _id (Some userId))
          {["published" := JBool false]}
          (MkOptions false true) c with
  | inr (Some result, c') => (Next "unpublishedProject" (Some result), c')
  | inr (None, c') =>
      (NextError "Error in marketplaceController.unpublishProject, check server logs for details", c')
  | inl _ =>
      (NextError "Error in marketplaceController.unpublishProject, check server logs for details", c)
  end.

(** [cloneProject]; [now] is the value of [Date.now()]. Reading
    [toObject] of a missing project and assigning into a [project] that is
    no object both throw, and end in the [catch] branch. *)
Definition cloneProject (now : Z) (req : Request) (c : Collection)
  : Outcome * Collection :=
  let failed :=
    (NextError "Error in marketplaceController.cloneProject, check server logs for details", c) in
  let userId := str_or_undefined (cookies req !! "ssid") in
  let username := str_or_undefined (cookies req !! "username") in
  match findOne (MkFilter (str_or_undefined (params req !! "docId")) None) c with
  | inr (Some originalProject) =>
      let updatedProject := doc_fields originalProject in
      let updatedProject := <["userId" := userId]> updatedProject in
      match set_prop (get updatedProject "project") "forked" (JBool true) with
      | None => failed
      | Some project' =>
          let updatedProject := <["project" := project']> updatedProject in
          let updatedProject := <["published" := JBool false]> updatedProject in
          let updatedProject :=
            <["forked" := JStr ("Forked from " +:+ to_string (get updatedProject "username"))]>
              updatedProject in
          let updatedProject := <["username" := username]> updatedProject in
          let updatedProject := <["createdAt" := JNum now]> updatedProject in
          (* [delete updatedProject._id]: the copy is created without an id *)
          match create None updatedProject c with
          | inr (clonedProject, c') => (Next "clonedProject" (Some clonedProject), c')
          | inl _ => failed
          end
      end
  | _ => failed
  end.

End Controller.

End Marketplace.
Export Marketplace.

(** ** The project tree store of the client *)

Module TreeStore.

(** [contextParam]: the bag of inherited context values. *)
Record ContextParam := MkContext { allContext : list JsVal }.

(** The payload of an [addChild] action, as [handleClick] builds it. *)
Record ChildData := MkChildData {
  cd_type : string;
  typeId : Z;
  childId : option Z;
  contextParam : ContextParam
}.

(** Modelled from the spec: a ComponentNode (section 3), a placed instance
    with its type, typeId, childId and contextParam. The state shape of
    [appStateSlice] is not among the sources. *)
Inductive ComponentNode :=
  Node (type : string) (tid : Z) (cid : Z) (ctx : ContextParam)
       (children : list ComponentNode).

(** Modelled from the spec: the Project Tree Store (section 4.1), the
    in-memory component hierarchy together with the next free child id.
    The reducers of [appStateSlice] are not among the sources. *)
Record Tree := MkTree { nodes : list ComponentNode; nextChildId : Z }.

(** Modelled from the spec: [addChild(intent)] (section 4.1) places a new
    node, below the node the payload names or at the top when it names none.
    The reducer [addChild] of [appStateSlice] is not among the sources. *)
Fixpoint place (parent : Z) (n m : ComponentNode) : ComponentNode :=
  match m with
  | Node ty t c ctx ch =>
      let ch' := map (place parent n) ch in
      Node ty t c ctx (if c =? parent then ch' ++ [n] else ch')
  end.

(** Modelled from the spec: [addChild(intent)] on the store (section 4.1);
    see [place]. *)
Definition addChild (t : Tree) (d : ChildData) : Tree :=
  let n := Node (cd_type d) (typeId d) (nextChildId t) (contextParam d) [] in
  MkTree (match childId d with
          | None => nodes t ++ [n]
          | Some parent => map (place parent n) (nodes t)
          end)
         (nextChildId t + 1).

End TreeStore.
Export TreeStore.

(** ** The HTML panel item *)

Module HTMLItem.

(** The props of the component; [handleDelete] is the parent's callback and
    appears below as the effect [HandleDelete]. *)
Record Props := MkProps { name : string; id : Z; icon : string }.

(** The Redux action [addChild(childData)]. *)
Inductive Action := AddChild (payload : ChildData).

(** The component's [modal] state: nothing, or the confirmation dialog
    built by [deleteAllInstances(deleteID)]. *)
Inductive ModalState := NoModal | DeleteModal (deleteID : Z).

(** What a handler does, one constructor per call it makes. *)
Inductive Effect :=
  | Dispatch (a : Action)
  | EmitEvent (event : string) (roomCode : option string) (payload : ChildData)
  | SetModal (m : ModalState)
  | HandleDelete (deleteID : Z).

Definition closeModal : list Effect := [SetModal NoModal].

Definition deleteAllInstances (deleteID : Z) : list Effect :=
  [SetModal (DeleteModal deleteID)].

(** [handleClick], for the [id] of the props and the [roomCode] selected
    from the store when the component rendered. *)
Definition handleClick (id : Z) (roomCode : option string) : list Effect :=
  let childData := MkChildData "HTML Element" id None (MkContext []) in
  Dispatch (AddChild childData)
  :: (if truthy_str roomCode
      then [EmitEvent "addChildAction" roomCode childData]
      else []).

(** An entry of the confirmation dialog: a [ListItem] with its
    [ListItemText], each with its click handler. *)
Record ModalItem := MkModalItem {
  item_key : string;
  primary : string;
  item_onClick : list Effect;
  text_onClick : list Effect
}.

(** The [children] that [deleteAllInstances] hands to [createModal]. *)
Definition modal_children (m : ModalState) : list ModalItem :=
  match m with
  | NoModal => []
  | DeleteModal deleteID =>
      [ MkModalItem ("clear" +:+ pretty deleteID) "Yes, delete all instances"
          [HandleDelete deleteID] closeModal;
        MkModalItem ("close" +:+ pretty deleteID) "No, do not delete element"
          closeModal closeModal ]
  end.

(** The draggable [div] of the item, with the delete button when it has one. *)
Record PanelDiv := MkPanelDiv {
  label : string;
  div_onClick : list Effect;
  button_onClick : option (list Effect)
}.

(** What the component returns: the [div] for a built-in element, the [div]
    for a custom element, and the modal. *)
Record View := MkView {
  builtin_div : option PanelDiv;
  custom_div : option PanelDiv;
  modal_view : list ModalItem
}.

Definition render (p : Props) (roomCode : option string) (modal : ModalState)
  : View :=
  MkView
    (if id p <=? 20
     then Some (MkPanelDiv (name p) (handleClick (id p) roomCode) None)
     else None)
    (if id p >? 20
     then Some (MkPanelDiv (name p) (handleClick (id p) roomCode)
                  (Some (deleteAllInstances (id p))))
     else None)
    (modal_children modal).

(** The [div] on screen. *)
Definition panel_div (v : View) : option PanelDiv :=
  match builtin_div v with
  | Some d => Some d
  | None => custom_div v
  end.

(** The delete affordance of a view: the handler of its [X] button. *)
Definition delete_button (v : View) : option (list Effect) :=
  d ← panel_div v; button_onClick d.

(** The clicks a user can make on the rendered item. *)
Inductive Gesture :=
  | ClickDiv
  | ClickButton
  | ClickItem (n : nat)
  | ClickItemText (n : nat).

(** The handlers a click runs, innermost element first: a click on the
    button bubbles to the [div] around it, a click on an entry's text
    bubbles to the entry. *)
Definition gesture_effects (v : View) (g : Gesture) : list Effect :=
  match g with
  | ClickDiv =>
      match panel_div v with
      | Some d => div_onClick d
      | None => []
      end
  | ClickButton =>
      match panel_div v with
      | Some d =>
          match button_onClick d with
          | Some h => h ++ div_onClick d
          | None => []
          end
      | None => []
      end
  | ClickItem n =>
      match modal_view v !! n with
      | Some it => item_onClick it
      | None => []
      end
  | ClickItemText n =>
      match modal_view v !! n with
      | Some it => text_onClick it ++ item_onClick it
      | None => []
      end
  end.

(** The events a list of effects sends to the relay. *)
Definition emitted (l : list Effect)
  : list (string * option string * ChildData) :=
  omap (fun e => match e with
                 | EmitEvent ev r d => Some (ev, r, d)
                 | _ => None
                 end) l.

(** The effects that work on the client's own state. *)
Definition is_local (e : Effect) : bool :=
  match e with
  | EmitEvent _ _ _ => false
  | _ => true
  end.

(** A client: its project tree, its room, the modal of the panel item, the
    events handed to the relay (a recording stub) and the deletions asked
    of the parent component. *)
Record Client := MkClient {
  tree : Tree;
  roomCode : option string;
  modal : ModalState;
  relay : list (string * option string * ChildData);
  deletions : list Z
}.

(** Modelled from the spec: how an effect acts on a client. A dispatched
    [addChild] goes through the reducer of the store (section 4.1), an
    emitted event is recorded by the relay (a recording stub, section 8), and
    a call of the parent's [handleDelete] is recorded. The Redux store, the
    socket helper and the parent component are not among the sources. *)
Definition run_effect (c : Client) (e : Effect) : Client :=
  match e with
  | Dispatch (AddChild d) =>
      MkClient (addChild (tree c) d) (roomCode c) (modal c) (relay c) (deletions c)
  | EmitEvent ev r d =>
      MkClient (tree c) (roomCode c) (modal c) (relay c ++ [(ev, r, d)]) (deletions c)
  | SetModal m =>
      MkClient (tree c) (roomCode c) m (relay c) (deletions c)
  | HandleDelete i =>
      MkClient (tree c) (roomCode c) (modal c) (relay c) (deletions c ++ [i])
  end.

(** A gesture on the item as the client shows it. *)
Definition perform (p : Props) (c : Client) (g : Gesture) : Client :=
  fold_left run_effect (gesture_effects (render p (roomCode c) (modal c)) g) c.

(** A sequence of gestures, each on the item as rendered after the one
    before. *)
Definition perform_all (p : Props) (c : Client) (gs : list Gesture) : Client :=
  fold_left (perform p) gs c.

(** A client that has just mounted the item: no modal, nothing sent, nothing
    deleted. *)
Definition mount (t : Tree) (roomCode : option string) : Client :=
  MkClient t roomCode NoModal [] [].

End HTMLItem.
Export HTMLItem.

(** ** The listing of the marketplace, and sequences of requests *)

Module Listing.

(** The query condition [{ published: true }] on a document. *)
Definition is_published (o : JsObj) : bool :=
  match o !! "published" with
  | Some (JBool true) => true
  | _ => false
  end.

(** [Projects.find({ published: true }).exec()], each document converted
    with [toObject({ minimize: false })]. *)
Definition find (c : Collection) : list Doc :=
  omap (fun io => if is_published (snd io) then Some (MkDoc (fst io) (snd io)) else None)
       (map_to_list c).

(** How [getPublishedProjects] ends: [res.locals.k = ds; next()] or
    [next(error)]. *)
Inductive ListOutcome :=
  | NextList (k : string) (ds : list Doc)
  | NextListError (err : string).

(** [getPublishedProjects]: the query has nothing to cast, so the [catch]
    branch is left to errors of the connection. *)
Definition getPublishedProjects (c : Collection) : ListOutcome * Collection :=
  let projects := find c in
  let convertedProjects := projects in
  (NextList "publishedProjects" convertedProjects, c).

(** A request to one of the middlewares of the controller. *)
Inductive Op :=
  | GetPublished
  | Publish (now : Z) (req : Request)
  | Unpublish (req : Request)
  | Clone (now : Z) (req : Request).

(** The collection after a request. *)
Definition step `{Driver} (c : Collection) (op : Op) : Collection :=
  match op with
  | GetPublished => snd (getPublishedProjects c)
  | Publish now req => snd (publishProject now req c)
  | Unpublish req => snd (unpublishProject req c)
  | Clone now req => snd (cloneProject now req c)
  end.

(** The collection after a sequence of requests, served one after the other. *)
Definition run `{Driver} (c : Collection) (ops : list Op) : Collection :=
  fold_left step ops c.

(** Every document of the collection has an object as its [project]. *)
Definition projects_are_objects (c : Collection) : Prop :=
  ∀ i o, c !! i = Some o → ∃ p : JsObj, o !! "project" = Some (JObj p).

End Listing.
Export Listing.

(** ** What a gesture dispatches *)

Module Dispatching.

(** The actions a list of effects dispatches to the store. *)
Definition dispatched (l : list Effect) : list Action :=
  omap (fun e => match e with
                 | Dispatch a => Some a
                 | _ => None
                 end) l.

End Dispatching.
Export Dispatching.

(** ** A concrete driver and collection

    Used to run the controller on explicit requests. *)

Module Scenario.

Definition hex_digit (a : Ascii.ascii) : option N :=
  let n := Ascii.N_of_ascii a in
  if ((48 <=? n) && (n <=? 57))%N then Some (n - 48)%N
  else if ((97 <=? n) && (n <=? 102))%N then Some (n - 87)%N
  else if ((65 <=? n) && (n <=? 70))%N then Some (n - 55)%N
  else None.

Fixpoint hex_value (s : string) (acc : N) : option N :=
  match s with
  | EmptyString => Some acc
  | String a s' =>
      match hex_digit a with
      | Some d => hex_value s' (16 * acc + d)%N
      | None => None
      end
  end.

(** The twelve bytes of a string of twelve ASCII characters, as a number. *)
Fixpoint bytes_value (s : string) (acc : N) : option N :=
  match s with
  | EmptyString => Some acc
  | String a s' =>
      let n := Ascii.N_of_ascii a in
      if (n <? 128)%N then bytes_value s' (256 * acc + n)%N else None
  end.

(** The object id a string stands for: 24 hexadecimal digits, or 12 bytes. *)
Definition object_id_of_string (s : string) : option N :=
  if (String.length s =? 24)%nat then hex_value s 0%N
  else if (String.length s =? 12)%nat then bytes_value s 0%N
  else None.




(** A driver after Mongoose 6, on strings and numbers. A string is cast when
    it has 24 hexadecimal digits or 12 bytes, a number is cast through its
    decimal string; [isValidObjectId] takes the strings that can be cast and
    every number. Other values are taken for neither. *)
#[export] Instance hex_driver : Driver := {|
  castObjectId v :=
    match v with
    | JStr s => object_id_of_string s
    | JNum n => object_id_of_string (pretty n)
    | _ => None
    end;
  isValidObjectId v :=
    match v with
    | JStr s => bool_decide (is_Some (object_id_of_string s))
    | JNum _ => true
    | _ => false
    end
|}.

(** A project that alice saved and did not publish. *)
Definition alice_project : JsObj :=
  <["project" := JObj {["name" := JStr "shop"]}]>
  (<["createdAt" := JNum 100]>
  (<["published" := JBool false]>
  (<["comments" := JArr []]>
  (<["name" := JStr "shop"]>
  (<["userId" := JStr "A"]>
  (<["username" := JStr "alice"]> ∅)))))).

(** The collection with that project alone, under the id 10. *)
Definition projects : gmap N JsObj := {[ 10%N := alice_project ]}.

Definition alice_id : string := "00000000000000000000000a".

Definition bob_cookies : gmap string string :=
  <["ssid" := "B"]> (<["username" := "bob"]> ∅).

(** bob publishes, unpublishes and clones under the id of alice's project. *)
Definition bob_publish : Request :=
  MkRequest
    (<["_id" := JStr alice_id]>
     (<["project" := JObj {["name" := JStr "mine"]}]>
     (<["name" := JStr "mine"]> (<["comments" := JArr []]> ∅))))
    bob_cookies ∅.

Definition bob_unpublish : Request :=
  MkRequest {["_id" := JStr alice_id]} bob_cookies ∅.

(** alice unpublishes her own project. *)
Definition alice_unpublish : Request :=
  MkRequest {["_id" := JStr alice_id]}
    (<["ssid" := "A"]> (<["username" := "alice"]> ∅)) ∅.

Definition bob_clone : Request :=
  MkRequest ∅ bob_cookies {["docId" := alice_id]}.

(** A first publication: the client sends an empty [_id], in the request
    and inside the project. *)
Definition first_publish : Request :=
  MkRequest
    (<["_id" := JStr ""]>
     (<["project" := JObj (<["_id" := JStr ""]>
                           (<["published" := JBool false]>
                           {["name" := JStr "shop"]}))]>
     (<["name" := JStr "shop"]> (<["comments" := JArr []]> ∅))))
    (<["ssid" := "A"]> (<["username" := "alice"]> ∅)) ∅.



(** A built-in element and a custom element of the panel. *)
Definition div_item : Props := MkProps "Div" 11 "Code".
Definition card_item : Props := MkProps "Card" 21 "Code".

Definition empty_tree : Tree := MkTree [] 1.

(** A client that edits alone, and one in the room "r1" that already has a
    node on its canvas. *)
Definition solo : Client := mount empty_tree None.
Definition in_room : Client :=
  mount (MkTree [Node "HTML Element" 11 1 (MkContext []) []] 2) (Some "r1").

End Scenario.
Export Scenario.

(** ** More requests on the concrete collection *)

Module Requests.

Definition alice_cookies : gmap string string :=
  <["ssid" := "A"]> (<["username" := "alice"]> ∅).

(** alice publishes her saved project again with a request that carries
    the project alone: no name, no comments, and no [username] cookie. *)
Definition alice_republish_bare : Request :=
  MkRequest
    (<["_id" := JStr alice_id]>
     (<["project" := JObj {["name" := JStr "store"]}]> ∅))
    {["ssid" := "A"]} ∅.

(** alice unpublishes the project that [first_publish] created (id 11). *)
Definition alice_unpublish_new : Request :=
  MkRequest {["_id" := JStr "00000000000000000000000b"]} alice_cookies ∅.

(** bob clones a project that is not there (id 12), and asks for a clone
    under an id that is no object id. *)
Definition bob_clone_missing : Request :=
  MkRequest ∅ bob_cookies {["docId" := "00000000000000000000000c"]}.

Definition bob_clone_garbled : Request :=
  MkRequest ∅ bob_cookies {["docId" := "shop"]}.

(** bob clones the first project of a collection (id 0). *)
Definition bob_clone_first : Request :=
  MkRequest ∅ bob_cookies {["docId" := "000000000000000000000000"]}.

(** A session on an empty collection: alice publishes, bob clones, the
    published projects are listed. *)
Definition session : list Op :=
  [Publish 100 first_publish; Clone 150 bob_clone_first; GetPublished].

(** A session on [projects]: bob publishes over alice's project, tries to
    unpublish, and clones it. *)
Definition bob_session : list Op :=
  [Publish 200 bob_publish; Unpublish alice_unpublish; Clone 300 bob_clone].

End Requests.
Export Requests.

(** * Properties of the marketplace controller *)

Section MarketplaceFacts.
Context `{Driver}.

(** Every id in use lies below the next id the collection hands out. *)
Lemma newObjectId_above (c : gmap N JsObj) (k : N) :
  is_Some (c !! k) → (k < newObjectId c)%N.
Proof.
  unfold newObjectId. revert k.
  apply (map_fold_weak_ind
           (fun (b : N) (m : gmap N JsObj) => ∀ k, is_Some (m !! k) → (k < b)%N)).
  - intros k [x Hx]. by rewrite lookup_empty in Hx.
  - intros i x m r _ IH k Hk.
    destruct (decide (i = k)) as [->|Hne].
    + lia.
    + rewrite lookup_insert_ne in Hk by done.
      specialize (IH k Hk). lia.
Qed.

Lemma newObjectId_fresh (c : gmap N JsObj) : c !! newObjectId c = None.
Proof.
  destruct (c !! newObjectId c) as [o|] eqn:E; [|done].
  assert (newObjectId c < newObjectId c)%N by (apply newObjectId_above; eauto).
  lia.
Qed.

(** The fields [publishProject] writes, read back one by one. *)
Lemma published_fields_project o t cm nm u un :
  published_fields o t cm nm u un !! "project" = Some (JObj o).
Proof. reflexivity. Qed.

Lemma published_fields_published o t cm nm u un :
  published_fields o t cm nm u un !! "published" = Some (JBool true).
Proof. unfold published_fields. by simplify_map_eq. Qed.

(** An update keeps the fields the update object lists. *)
Lemma update_keeps_written (upd old : JsObj) k v :
  upd !! k = Some v → (upd ∪ old) !! k = Some v.
Proof. apply lookup_union_Some_l. Qed.

(** The fields of an update that are sent. *)
Lemma strip_lookup (upd : JsObj) k :
  strip_undefined upd !! k = upd !! k ≫= defined_value.
Proof. unfold strip_undefined. apply lookup_omap. Qed.

Lemma strip_lookup_defined (upd : JsObj) k v :
  upd !! k = Some v → v ≠ JUndefined → strip_undefined upd !! k = Some v.
Proof. intros Hk Hv. rewrite strip_lookup, Hk. by destruct v. Qed.

(** A field after an update of a stored document. *)
Lemma update_lookup (upd old : JsObj) k :
  (strip_undefined upd ∪ old) !! k
  = match upd !! k with
    | Some v => written v (old !! k)
    | None => old !! k
    end.
Proof.
  rewrite lookup_union, strip_lookup.
  destruct (upd !! k) as [v|]; cbn; [|by destruct (old !! k)].
  destruct v; cbn; by destruct (old !! k).
Qed.

Lemma update_sets (upd old : JsObj) k v :
  upd !! k = Some v → v ≠ JUndefined → (strip_undefined upd ∪ old) !! k = Some v.
Proof. intros Hk Hv. rewrite update_lookup, Hk. by destruct v. Qed.

(** The other fields [publishProject] writes, read back. *)
Lemma published_fields_createdAt o t cm nm u un :
  published_fields o t cm nm u un !! "createdAt" = Some (JNum t).
Proof. unfold published_fields. by simplify_map_eq. Qed.

Lemma published_fields_comments o t cm nm u un :
  published_fields o t cm nm u un !! "comments" = Some cm.
Proof. unfold published_fields. by simplify_map_eq. Qed.

Lemma published_fields_name o t cm nm u un :
  published_fields o t cm nm u un !! "name" = Some nm.
Proof. unfold published_fields. by simplify_map_eq. Qed.

Lemma published_fields_userId o t cm nm u un :
  published_fields o t cm nm u un !! "userId" = Some u.
Proof. unfold published_fields. by simplify_map_eq. Qed.

Lemma published_fields_username o t cm nm u un :
  published_fields o t cm nm u un !! "username" = Some un.
Proof. unfold published_fields. by simplify_map_eq. Qed.

(** The keys [publishProject] writes. *)
Lemma published_fields_other p t cm nm u un k :
  k ∉ ["project"; "createdAt"; "published"; "comments"; "name"; "userId"; "username"] →
  published_fields p t cm nm u un !! k = None.
Proof.
  intros Hk. unfold published_fields.
  rewrite !lookup_insert_ne; [apply lookup_empty|..]; intros <-; apply Hk; set_solver.
Qed.

Lemma stripped_noPub (v : JsVal) k :
  k = "_id" ∨ k = "published" →
  delete "_id" (delete "published" (spread v)) !! k = None.
Proof. intros [-> | ->]; by simplify_map_eq. Qed.

Lemma stripped_noId (v : JsVal) k :
  k = "_id" ∨ k = "published" →
  delete "published" (delete "_id" (spread v)) !! k = None.
Proof. intros [-> | ->]; by simplify_map_eq. Qed.

(** The create branch of [publishProject], spelled out. *)
Lemma publish_create now req c :
  isValidObjectId (get (body req) "_id") = false →
  publishProject now req c =
    let o := published_fields
               (delete "published" (delete "_id" (spread (get (body req) "project"))))
               now (get (body req) "comments") (get (body req) "name")
               (str_or_undefined (cookies req !! "ssid"))
               (str_or_undefined (cookies req !! "username")) in
    (Next "publishedProject" (Some (MkDoc (newObjectId c) o)),
     <[newObjectId c := o]> c).
Proof. intros Hv. unfold publishProject. rewrite Hv. reflexivity. Qed.

(** The update branch of [publishProject], spelled out: the filter is the
    [_id] alone. *)
Lemma publish_update now req c i :
  isValidObjectId (get (body req) "_id") = true →
  castObjectId (get (body req) "_id") = Some i →
  publishProject now req c =
    let upd := published_fields
                 (delete "_id" (delete "published" (spread (get (body req) "project"))))
                 now (get (body req) "comments") (get (body req) "name")
                 (str_or_undefined (cookies req !! "ssid"))
                 (str_or_undefined (cookies req !! "username")) in
    let o := match c !! i with
             | Some old => strip_undefined upd ∪ old
             | None => strip_undefined upd
             end in
    (Next "publishedProject" (Some (MkDoc i o)), <[i := o]> c).
Proof.
  intros Hv Hc. unfold publishProject, findOneAndUpdate. rewrite Hv. simpl.
  rewrite Hc. by destruct (c !! i).
Qed.

Lemma publish_cast_error now req c :
  isValidObjectId (get (body req) "_id") = true →
  castObjectId (get (body req) "_id") = None →
  publishProject now req c =
    (NextError "Error in marketplaceController.publishProject, check server logs for details", c).
Proof.
  intros Hv Hc. unfold publishProject, findOneAndUpdate. rewrite Hv. simpl.
  by rewrite Hc.
Qed.

(** [cloneProject] on a project it finds, spelled out. *)
Lemma clone_found now req c i src p :
  castObjectId (str_or_undefined (params req !! "docId")) = Some i →
  c !! i = Some src →
  src !! "project" = Some (JObj p) →
  cloneProject now req c =
    let o :=
      <["createdAt" := JNum now]>
      (<["username" := str_or_undefined (cookies req !! "username")]>
      (<["forked" := JStr ("Forked from " +:+ to_string (get src "username"))]>
      (<["published" := JBool false]>
      (<["project" := JObj (<["forked" := JBool true]> p)]>
      (<["userId" := str_or_undefined (cookies req !! "ssid")]> src))))) in
    (Next "clonedProject" (Some (MkDoc (newObjectId c) o)), <[newObjectId c := o]> c).
Proof.
  intros Hc Hi Hp.
  unfold cloneProject, findOne. cbn [f_id filter_matches f_userId].
  rewrite Hc, Hi. cbn [doc_fields doc_id].
  assert (Hg : get (<["userId" := str_or_undefined (cookies req !! "ssid")]> src)
                   "project" = JObj p).
  { unfold get. rewrite lookup_insert_ne by done. by rewrite Hp. }
  rewrite Hg. cbn [set_prop create]. cbv zeta.
  do 4 f_equal; unfold get; by rewrite !lookup_insert_ne by done.
Qed.

End MarketplaceFacts.

Section MarketplaceClaims.
Context `{Driver}.

(** C10. Whatever the request, [publishProject] either persists a document
    whose [project] sub-document is the request's [project] without its own
    [_id] and [published] (this in the create branch and in the update
    branch alike), or it fails on an [_id] the driver cannot cast and leaves
    the collection as it was. *)
Theorem publish_strips_inner_id_and_published now req c :
  (∃ d c' o,
      publishProject now req c = (Next "publishedProject" (Some d), c')
      ∧ c' !! doc_id d = Some (doc_fields d)
      ∧ doc_fields d !! "project" = Some (JObj o)
      ∧ o !! "_id" = None ∧ o !! "published" = None
      ∧ ∀ k, k ≠ "_id" → k ≠ "published" →
             o !! k = spread (get (body req) "project") !! k)
  ∨ (isValidObjectId (get (body req) "_id") = true
     ∧ castObjectId (get (body req) "_id") = None
     ∧ ∃ err, publishProject now req c = (NextError err, c)).
Proof.
  destruct (isValidObjectId (get (body req) "_id")) eqn:Hv.
  - destruct (castObjectId (get (body req) "_id")) as [i|] eqn:Hc.
    + left. rewrite (publish_update now req c i Hv Hc). cbv zeta.
      eexists _, _, _. split; [reflexivity|]. cbn [doc_id doc_fields].
      split; [by rewrite lookup_insert_eq|].
      split.
      { destruct (c !! i); [apply update_keeps_written|];
          (eapply strip_lookup_defined; [apply published_fields_project|done]). }
      split; [by apply stripped_noPub; left|].
      split; [by apply stripped_noPub; right|].
      intros k H1 H2. by rewrite !lookup_delete_ne.
    + right. rewrite (publish_cast_error now req c Hv Hc). eauto.
  - left. rewrite (publish_create now req c Hv). cbv zeta.
    eexists _, _, _. split; [reflexivity|]. cbn [doc_id doc_fields].
    split; [by rewrite lookup_insert_eq|].
    split; [apply published_fields_project|].
    split; [by apply stripped_noId; left|].
    split; [by apply stripped_noId; right|].
    intros k H1 H2. by rewrite !lookup_delete_ne.
Qed.


(** C3. When the project named by the request's [_id] belongs to user [a]
    and the session identity of the request is not [a], [unpublishProject]
    ends in the error path and the collection, and with it the project's
    [published] flag, is what it was. *)
Theorem unpublish_by_other_user_fails req c i o a :
  castObjectId (get (body req) "_id") = Some i →
  c !! i = Some o →
  o !! "userId" = Some (JStr a) →
  cookies req !! "ssid" ≠ Some a →
  ∃ err, unpublishProject req c = (NextError err, c)
         ∧ (snd (unpublishProject req c)) !! i = Some o.
Proof.
  intros Hc Hi Ho Hne.
  unfold unpublishProject, findOneAndUpdate. cbn [f_id]. rewrite Hc, Hi.
  assert (Hm : filter_matches (MkFilter (get (body req) "_id")
                                        (Some (cookies req !! "ssid"))) o = false).
  { unfold filter_matches, userId_matches. cbn [f_userId]. rewrite Ho.
    destruct (cookies req !! "ssid") as [b|]; [|done].
    apply String.eqb_neq. congruence. }
  rewrite Hm. cbn. eauto.
Qed.

(** C1, as the controller has it. Cloning an existing project whose
    [project] sub-document is an object yields a document under an id that
    no persisted project has (so not the source's), with [published] false
    and [forked] naming the source's owner; [userId] and [username] are
    those of the cloning session, [createdAt] is the time of the clone, the
    [project] sub-document is the source's with its own [forked] set to
    true, and every other field is the source's. *)
Theorem clone_fields now req c i src p :
  castObjectId (str_or_undefined (params req !! "docId")) = Some i →
  c !! i = Some src →
  src !! "project" = Some (JObj p) →
  ∃ clone c',
    cloneProject now req c = (Next "clonedProject" (Some clone), c')
    ∧ c !! doc_id clone = None
    ∧ doc_id clone ≠ i
    ∧ c' = <[doc_id clone := doc_fields clone]> c
    ∧ doc_fields clone !! "published" = Some (JBool false)
    ∧ doc_fields clone !! "forked"
      = Some (JStr ("Forked from " +:+ to_string (get src "username")))
    ∧ doc_fields clone !! "userId" = Some (str_or_undefined (cookies req !! "ssid"))
    ∧ doc_fields clone !! "username"
      = Some (str_or_undefined (cookies req !! "username"))
    ∧ doc_fields clone !! "createdAt" = Some (JNum now)
    ∧ doc_fields clone !! "project" = Some (JObj (<["forked" := JBool true]> p))
    ∧ ∀ k, k ∉ ["userId"; "username"; "createdAt"; "project"; "published"; "forked"] →
           doc_fields clone !! k = src !! k.
Proof.
  intros Hc Hi Hp. rewrite (clone_found now req c i src p Hc Hi Hp). cbv zeta.
  eexists _, _. split; [reflexivity|]. cbn [doc_id doc_fields].
  pose proof (newObjectId_fresh c) as Hfresh.
  split; [done|].
  split; [congruence|].
  split; [done|].
  do 6 (split; [by simplify_map_eq|]).
  intros k Hk.
  rewrite !lookup_insert_ne; [done|..]; intros <-; apply Hk; set_solver.
Qed.

End MarketplaceClaims.

(** ** The marketplace controller on the concrete collection *)

(** C2, on the code. bob's publish request names alice's unpublished
    project. The query filters by [_id] alone, so the request succeeds and
    the project is overwritten: it is now published, and bob's. *)
Theorem publish_overwrites_other_users_project :
  projects !! 10%N = Some alice_project
  ∧ alice_project !! "userId" = Some (JStr "A")
  ∧ alice_project !! "published" = Some (JBool false)
  ∧ cookies bob_publish !! "ssid" = Some "B"
  ∧ castObjectId (get (body bob_publish) "_id") = Some 10%N
  ∧ ∃ d c',
      publishProject 200 bob_publish projects = (Next "publishedProject" (Some d), c')
      ∧ c' !! 10%N = Some (doc_fields d)
      ∧ doc_fields d !! "userId" = Some (JStr "B")
      ∧ doc_fields d !! "username" = Some (JStr "bob")
      ∧ doc_fields d !! "published" = Some (JBool true)
      ∧ doc_fields d !! "name" = Some (JStr "mine").
Proof.
  repeat (split; [vm_compute; reflexivity|]).
  rewrite (publish_update 200 bob_publish projects 10%N) by (vm_compute; reflexivity).
  cbv zeta. eexists _, _. split; [reflexivity|].
  cbn [doc_fields]. repeat split; vm_compute; reflexivity.
Qed.

(** The owner's own request goes through: the error of the next lemma comes
    from the mismatch, not from the query. *)
Example unpublish_by_owner_succeeds :
  ∃ d c',
    unpublishProject alice_unpublish projects = (Next "unpublishedProject" (Some d), c')
    ∧ doc_id d = 10%N
    ∧ c' !! 10%N = Some (doc_fields d)
    ∧ doc_fields d !! "published" = Some (JBool false)
    ∧ doc_fields d !! "userId" = Some (JStr "A").
Proof.
  eexists _, _. split; [vm_compute; reflexivity|].
  repeat split; vm_compute; reflexivity.
Qed.

(** bob cannot unpublish alice's project. *)
Lemma unpublish_by_other_user_fails_witness :
  ∃ err, unpublishProject bob_unpublish projects = (NextError err, projects)
         ∧ (snd (unpublishProject bob_unpublish projects)) !! 10%N = Some alice_project.
Proof.
  apply (unpublish_by_other_user_fails bob_unpublish projects 10%N alice_project "A").
  - vm_compute; reflexivity.
  - vm_compute; reflexivity.
  - vm_compute; reflexivity.
  - vm_compute. discriminate.
Defined.



(** bob clones alice's project. *)
Lemma clone_fields_witness :
  ∃ clone c',
    cloneProject 200 bob_clone projects = (Next "clonedProject" (Some clone), c')
    ∧ doc_id clone ≠ 10%N
    ∧ doc_fields clone !! "published" = Some (JBool false)
    ∧ doc_fields clone !! "forked" = Some (JStr "Forked from alice")
    ∧ doc_fields clone !! "name" = Some (JStr "shop").
Proof.
  destruct (clone_fields 200 bob_clone projects 10%N alice_project
              {["name" := JStr "shop"]})
    as (clone & c' & E & _ & Hid & _ & Hpub & Hfork & _ & _ & _ & _ & Hrest).
  - vm_compute; reflexivity.
  - vm_compute; reflexivity.
  - vm_compute; reflexivity.
  - exists clone, c'. split; [exact E|]. split; [exact Hid|].
    split; [exact Hpub|]. split; [exact Hfork|].
    rewrite Hrest; [vm_compute; reflexivity|].
    intros Hin. repeat (apply elem_of_cons in Hin as [Hin|Hin]; [discriminate|]).
    by apply elem_of_nil in Hin.
Defined.

(** C1, as the claim has it, fails for the very fields the clone is made
    for: bob's clone of alice's project carries bob's [userId], not
    alice's, so not every field other than [published] and [forked] is the
    source's. *)
Lemma clone_changes_owner_fields :
  projects !! 10%N = Some alice_project
  ∧ ∃ clone c',
      cloneProject 200 bob_clone projects = (Next "clonedProject" (Some clone), c')
      ∧ ¬ (∀ k, k ≠ "published" → k ≠ "forked" →
                doc_fields clone !! k = alice_project !! k).
Proof.
  split; [vm_compute; reflexivity|].
  eexists _, _. split.
  { apply (clone_found 200 bob_clone projects 10%N alice_project
             {["name" := JStr "shop"]}); vm_compute; reflexivity. }
  cbn [doc_fields]. intros Hall.
  assert (Hu : Some (JStr "B") = Some (JStr "A")).
  { specialize (Hall "userId"). vm_compute in Hall. apply Hall; discriminate. }
  discriminate Hu.
Qed.

(** * Properties of the HTML panel item *)

Section PanelFacts.

Implicit Types (p : Props) (c : Client) (g : Gesture) (l : list Effect).

(** The effects of a gesture, by cases: nothing, the effects of
    [handleClick] (after the opening of the dialog, when the click was on the
    button), or the effects of an entry of the dialog. *)
Lemma gesture_effects_cases p rc m g :
  let effs := gesture_effects (render p rc m) g in
  effs = []
  ∨ effs = handleClick (id p) rc
  ∨ (20 < id p ∧ effs = SetModal (DeleteModal (id p)) :: handleClick (id p) rc)
  ∨ (∃ k, m = DeleteModal k
          ∧ (effs = [HandleDelete k] ∨ effs = [SetModal NoModal; HandleDelete k]
             ∨ effs = [SetModal NoModal] ∨ effs = [SetModal NoModal; SetModal NoModal])).
Proof.
  cbv zeta. unfold gesture_effects, render, panel_div. cbn.
  destruct g as [| |n|n].
  - destruct (Z.leb_spec (id p) 20), (Z.gtb_spec (id p) 20); cbn; auto.
  - destruct (Z.leb_spec (id p) 20), (Z.gtb_spec (id p) 20); cbn; auto; lia.
  - destruct m as [|k]; cbn; [by rewrite lookup_nil; auto|].
    destruct n as [|[|n]]; cbn; eauto 10.
  - destruct m as [|k]; cbn; [by rewrite lookup_nil; auto|].
    destruct n as [|[|n]]; cbn; eauto 10.
Qed.

Lemma handleClick_cases n rc :
  (truthy_str rc = false
   ∧ handleClick n rc
     = [Dispatch (AddChild (MkChildData "HTML Element" n None (MkContext [])))])
  ∨ (truthy_str rc = true
     ∧ handleClick n rc
       = [Dispatch (AddChild (MkChildData "HTML Element" n None (MkContext [])));
          EmitEvent "addChildAction" rc
            (MkChildData "HTML Element" n None (MkContext []))]).
Proof. unfold handleClick. destruct (truthy_str rc); auto. Qed.

Lemma truthy_str_Some rc : truthy_str rc = true → rc ≠ None.
Proof. by destruct rc. Qed.

(** The relay records exactly the events among the effects. *)
Lemma relay_fold l c :
  relay (fold_left run_effect l c) = relay c ++ emitted l.
Proof.
  revert c. induction l as [|e l IH]; intros c; cbn.
  - by rewrite app_nil_r.
  - rewrite IH. destruct e as [[d]|ev r d|m|k]; cbn; [done| |done|done].
    by rewrite <- app_assoc.
Qed.

(** On a built-in element no gesture opens the dialog or asks for a
    deletion. *)
Lemma builtin_step p c g :
  id p ≤ 20 → modal c = NoModal →
  modal (perform p c g) = NoModal ∧ deletions (perform p c g) = deletions c.
Proof.
  intros Hid Hm. unfold perform.
  destruct (gesture_effects_cases p (roomCode c) (modal c) g)
    as [E|[E|[[Hgt E]|(k & Hk & _)]]]; [| |lia|congruence].
  - cbv zeta in E. by rewrite E.
  - cbv zeta in E. rewrite E.
    destruct (handleClick_cases (id p) (roomCode c)) as [[_ ->]|[_ ->]]; by cbn.
Qed.

Lemma builtin_never_deletes p gs c :
  id p ≤ 20 → modal c = NoModal →
  deletions (perform_all p c gs) = deletions c.
Proof.
  intros Hid. revert c. induction gs as [|g gs IH]; intros c Hm; [done|].
  cbn. destruct (builtin_step p c g Hid Hm) as [Hm' Hd'].
  unfold perform_all in IH. by rewrite IH, Hd'.
Qed.

End PanelFacts.

Section PanelClaims.

Implicit Types (p : Props) (c : Client) (g : Gesture).

(** C4. Whatever the gesture on the panel item, an event goes to the relay
    only when the client's room code is not null, and then for that room;
    when there is no room code, the gesture's effects hold no event and the
    relay has recorded nothing new once the gesture is done. *)
Theorem emit_only_with_room p c g :
  let effs := gesture_effects (render p (roomCode c) (modal c)) g in
  (∀ ev r d, (ev, r, d) ∈ emitted effs → roomCode c ≠ None ∧ r = roomCode c)
  ∧ (roomCode c = None → emitted effs = [] ∧ relay (perform p c g) = relay c).
Proof.
  cbv zeta.
  assert (Hcases :
    emitted (gesture_effects (render p (roomCode c) (modal c)) g) = []
    ∨ (truthy_str (roomCode c) = true
       ∧ emitted (gesture_effects (render p (roomCode c) (modal c)) g)
         = [("addChildAction", roomCode c,
             MkChildData "HTML Element" (id p) None (MkContext []))])).
  { destruct (gesture_effects_cases p (roomCode c) (modal c) g)
      as [E|[E|[[_ E]|(k & _ & [E|[E|[E|E]]])]]];
      cbv zeta in E; rewrite E; clear E;
      try (destruct (handleClick_cases (id p) (roomCode c)) as [[Ht ->]|[Ht ->]]);
      cbn; auto. }
  split.
  - intros ev r d Hin. destruct Hcases as [E|[Ht E]]; rewrite E in Hin.
    + by apply elem_of_nil in Hin.
    + apply list_elem_of_singleton in Hin. injection Hin as -> -> ->.
      split; [by apply truthy_str_Some|done].
  - intros Hnone. destruct Hcases as [E|[Ht E]].
    + split; [done|]. unfold perform. by rewrite relay_fold, E, app_nil_r.
    + rewrite Hnone in Ht. discriminate Ht.
Qed.

(** C6. In the effects of every gesture on the panel item, an event sent to
    the relay comes after the dispatch of the same mutation to the local
    store, and all work on the client's own state comes before it: nothing
    local is left to wait for the relay. *)
Theorem dispatch_before_emit p c g (j : nat) ev r d :
  let effs := gesture_effects (render p (roomCode c) (modal c)) g in
  effs !! j = Some (EmitEvent ev r d) →
  (∃ i : nat, (i < j)%nat ∧ effs !! i = Some (Dispatch (AddChild d)))
  ∧ (∀ (i : nat) e, effs !! i = Some e → is_local e = true → (i < j)%nat).
Proof.
  cbv zeta.
  destruct (gesture_effects_cases p (roomCode c) (modal c) g)
    as [E|[E|[[_ E]|(k & _ & [E|[E|[E|E]]])]]];
    cbv zeta in E; rewrite E; clear E;
    try (destruct (handleClick_cases (id p) (roomCode c)) as [[_ ->]|[_ ->]]);
    intros Hj;
    repeat (destruct j as [|j]; cbn in Hj; try discriminate Hj);
    injection Hj as <- <- <-.
  - split; [exists 0%nat; split; [lia|done]|].
    intros i e Hi Hl.
    repeat (destruct i as [|i]; cbn in Hi; try discriminate Hi; try lia).
    injection Hi as <-. discriminate Hl.
  - split; [exists 1%nat; split; [lia|done]|].
    intros i e Hi Hl.
    repeat (destruct i as [|i]; cbn in Hi; try discriminate Hi; try lia).
    injection Hi as <-. discriminate Hl.
Qed.

(** C7. The panel item offers the delete button exactly when the element's
    id is above 20; and, starting from the item as mounted, some sequence of
    gestures asks the parent to delete all instances of the element exactly
    when its id is above 20. *)
Theorem deletable_iff_above_threshold p c :
  modal c = NoModal →
  deletions c = [] →
  (is_Some (delete_button (render p (roomCode c) (modal c))) ↔ 20 < id p)
  ∧ ((∃ gs, id p ∈ deletions (perform_all p c gs)) ↔ 20 < id p).
Proof.
  intros Hm Hd. split.
  - unfold delete_button, render, panel_div. cbn.
    destruct (Z.leb_spec (id p) 20), (Z.gtb_spec (id p) 20); cbn;
      split; intros Hx; try lia; try (by eexists); by destruct Hx.
  - split.
    + intros [gs Hin]. destruct (Z.le_gt_cases (id p) 20) as [Hle|Hgt]; [|lia].
      rewrite (builtin_never_deletes p gs c Hle Hm), Hd in Hin.
      by apply elem_of_nil in Hin.
    + intros Hgt. exists [ClickButton; ClickItem 0].
      unfold perform_all. cbn [fold_left].
      assert (E1 : modal (perform p c ClickButton) = DeleteModal (id p)).
      { unfold perform, gesture_effects, render, panel_div. cbn.
        destruct (Z.leb_spec (id p) 20), (Z.gtb_spec (id p) 20); try lia.
        unfold handleClick. by destruct (truthy_str (roomCode c)). }
      unfold perform at 1. rewrite E1.
      unfold gesture_effects, render. cbn. set_solver.
Qed.

(** C9. While a room is active, a click on the panel item dispatches an
    [addChild] action and emits an [addChildAction] event with one and the
    same payload: type "HTML Element", the item's id as typeId, a null
    childId and an empty context; and in the effects of any gesture, the
    payload of an emitted event is the payload of a dispatched action. *)
Theorem emitted_payload_is_dispatched p rc m :
  truthy_str rc = true →
  (∃ d, gesture_effects (render p rc m) ClickDiv
        = [Dispatch (AddChild d); EmitEvent "addChildAction" rc d]
        ∧ d = MkChildData "HTML Element" (id p) None (MkContext []))
  ∧ (∀ g ev r d,
       (ev, r, d) ∈ emitted (gesture_effects (render p rc m) g) →
       Dispatch (AddChild d) ∈ gesture_effects (render p rc m) g).
Proof.
  intros Ht. split.
  - eexists. split; [|reflexivity].
    unfold gesture_effects, render, panel_div. cbn.
    destruct (handleClick_cases (id p) rc) as [[Hf _]|[_ E]]; [congruence|].
    destruct (Z.leb_spec (id p) 20), (Z.gtb_spec (id p) 20); cbn; try lia; exact E.
  - intros g ev r d.
    destruct (gesture_effects_cases p rc m g)
      as [E|[E|[[_ E]|(k & _ & [E|[E|[E|E]]])]]];
      cbv zeta in E; rewrite E; clear E;
      try (destruct (handleClick_cases (id p) rc) as [[_ ->]|[_ ->]]);
      cbn; intros Hin;
      first [ by apply elem_of_nil in Hin
            | apply list_elem_of_singleton in Hin; injection Hin as -> -> ->;
              repeat constructor ].
Qed.

End PanelClaims.

(** ** The panel item on concrete clients *)

(** A click on a client that edits alone sends nothing. *)
Lemma emit_only_with_room_witness :
  emitted (gesture_effects (render div_item (roomCode solo) (modal solo)) ClickDiv) = []
  ∧ relay (perform div_item solo ClickDiv) = relay solo.
Proof.
  apply (emit_only_with_room div_item solo ClickDiv). reflexivity.
Defined.

(** A click in the room "r1": the event is the second effect, the dispatch
    the first. *)
Lemma dispatch_before_emit_witness :
  (∃ i : nat, (i < 1)%nat
     ∧ gesture_effects (render div_item (roomCode in_room) (modal in_room)) ClickDiv !! i
       = Some (Dispatch (AddChild (MkChildData "HTML Element" 11 None (MkContext [])))))
  ∧ (∀ (i : nat) e,
       gesture_effects (render div_item (roomCode in_room) (modal in_room)) ClickDiv !! i
       = Some e →
       is_local e = true → (i < 1)%nat).
Proof.
  apply (dispatch_before_emit div_item in_room ClickDiv 1 "addChildAction" (Some "r1")).
  reflexivity.
Defined.

(** The custom element "Card" on a freshly mounted client. *)
Lemma deletable_iff_above_threshold_witness :
  (is_Some (delete_button (render card_item (roomCode solo) (modal solo))) ↔ 20 < id card_item)
  ∧ ((∃ gs, id card_item ∈ deletions (perform_all card_item solo gs)) ↔ 20 < id card_item).
Proof.
  apply (deletable_iff_above_threshold card_item solo); reflexivity.
Defined.

(** A click on "Div" in the room "r1". *)
Lemma emitted_payload_is_dispatched_witness :
  ∃ d, gesture_effects (render div_item (Some "r1") NoModal) ClickDiv
       = [Dispatch (AddChild d); EmitEvent "addChildAction" (Some "r1") d]
       ∧ d = MkChildData "HTML Element" 11 None (MkContext []).
Proof.
  apply (emitted_payload_is_dispatched div_item (Some "r1") NoModal). reflexivity.
Defined.

(** * Further properties of the marketplace controller *)

Section ListingFacts.
Context `{Driver}.

Implicit Types (c : gmap N JsObj) (o : JsObj) (d : Doc).

(** A document is listed when it is in the collection and published. *)
Lemma elem_of_find c d :
  d ∈ find c ↔ c !! doc_id d = Some (doc_fields d) ∧ is_published (doc_fields d) = true.
Proof.
  unfold find. rewrite list_elem_of_omap. split.
  - intros ([i o] & Hin & Hf). apply elem_of_map_to_list in Hin. cbn in Hf.
    destruct (is_published o) eqn:Hp; [|discriminate Hf].
    injection Hf as <-. by cbn.
  - intros [Hc Hp]. exists (doc_id d, doc_fields d). split.
    + by apply elem_of_map_to_list.
    + cbn. rewrite Hp. by destruct d.
Qed.

Lemma is_published_true o : is_published o = true ↔ o !! "published" = Some (JBool true).
Proof.
  unfold is_published. split.
  - by destruct (o !! "published") as [[| |[|]| | | |]|].
  - by intros ->.
Qed.

(** The two ways [publishProject] ends. *)
Lemma publish_cases now req c :
  (∃ i o,
      publishProject now req c
      = (Next "publishedProject" (Some (MkDoc i o)), <[i := o]> c)
      ∧ o !! "published" = Some (JBool true)
      ∧ (∀ a, cookies req !! "ssid" = Some a → o !! "userId" = Some (JStr a))
      ∧ ∃ p : JsObj, o !! "project" = Some (JObj p))
  ∨ (∃ err, publishProject now req c = (NextError err, c)).
Proof.
  destruct (isValidObjectId (get (body req) "_id")) eqn:Hv.
  - destruct (castObjectId (get (body req) "_id")) as [i|] eqn:Hc.
    + left. rewrite (publish_update now req c i Hv Hc). cbv zeta.
      eexists _, _. split; [reflexivity|].
      destruct (c !! i).
      * split; [eapply update_sets; [apply published_fields_published|done]|].
        split.
        { intros a Ha. rewrite Ha. cbn [str_or_undefined].
          eapply update_sets; [apply published_fields_userId|done]. }
        eexists. eapply update_sets; [apply published_fields_project|done].
      * split; [eapply strip_lookup_defined; [apply published_fields_published|done]|].
        split.
        { intros a Ha. rewrite Ha. cbn [str_or_undefined].
          eapply strip_lookup_defined; [apply published_fields_userId|done]. }
        eexists. eapply strip_lookup_defined; [apply published_fields_project|done].
    + right. rewrite (publish_cast_error now req c Hv Hc). eauto.
  - left. rewrite (publish_create now req c Hv). cbv zeta.
    eexists _, _. split; [reflexivity|].
    split; [apply published_fields_published|].
    split; [intros a Ha; rewrite published_fields_userId; by rewrite Ha|].
    eexists. apply published_fields_project.
Qed.

(** The two ways [unpublishProject] ends. *)
Lemma unpublish_cases req c :
  (∃ i o,
      castObjectId (get (body req) "_id") = Some i
      ∧ c !! i = Some o
      ∧ userId_matches o (cookies req !! "ssid") = true
      ∧ unpublishProject req c
        = (Next "unpublishedProject" (Some (MkDoc i (<["published" := JBool false]> o))),
           <[i := <["published" := JBool false]> o]> c))
  ∨ ((castObjectId (get (body req) "_id") = None
      ∨ ∃ i, castObjectId (get (body req) "_id") = Some i
             ∧ (c !! i = None
                ∨ ∃ o, c !! i = Some o
                       ∧ userId_matches o (cookies req !! "ssid") = false))
     ∧ ∃ err, unpublishProject req c = (NextError err, c)).
Proof.
  unfold unpublishProject, findOneAndUpdate. cbn [f_id filter_matches f_userId].
  destruct (castObjectId (get (body req) "_id")) as [i|] eqn:Hc; [|right; eauto].
  destruct (c !! i) as [o|] eqn:Hi; [|right; cbn; eauto 10].
  destruct (userId_matches o (cookies req !! "ssid")) eqn:Hm; [|right; cbn; eauto 10].
  left. exists i, o. cbn.
  assert (Hs : strip_undefined {["published" := JBool false]}
               = ({["published" := JBool false]} : JsObj)).
  { apply map_eq. intros k. rewrite strip_lookup.
    destruct (decide (k = "published")) as [->|Hne].
    - by rewrite lookup_singleton_eq.
    - by rewrite lookup_singleton_ne. }
  rewrite Hs, <- insert_union_singleton_l. auto.
Qed.

(** The two ways [cloneProject] ends. *)
Lemma clone_cases now req c :
  (∃ i src o,
      castObjectId (str_or_undefined (params req !! "docId")) = Some i
      ∧ c !! i = Some src
      ∧ cloneProject now req c
        = (Next "clonedProject" (Some (MkDoc (newObjectId c) o)), <[newObjectId c := o]> c)
      ∧ o !! "published" = Some (JBool false)
      ∧ o !! "userId" = Some (str_or_undefined (cookies req !! "ssid"))
      ∧ ∃ p', set_prop (get src "project") "forked" (JBool true) = Some p'
              ∧ o !! "project" = Some p')
  ∨ (∃ err, cloneProject now req c = (NextError err, c)).
Proof.
  unfold cloneProject, findOne. cbn [f_id filter_matches f_userId].
  destruct (castObjectId (str_or_undefined (params req !! "docId"))) as [i|];
    [|right; eauto].
  destruct (c !! i) as [src|] eqn:Hi; [|right; eauto].
  cbn [doc_fields doc_id].
  assert (Hg : get (<["userId" := str_or_undefined (cookies req !! "ssid")]> src)
                   "project" = get src "project").
  { unfold get. by rewrite lookup_insert_ne. }
  rewrite Hg.
  destruct (set_prop (get src "project") "forked" (JBool true)) as [p'|] eqn:Hp;
    [|right; eauto].
  left. cbn [create]. eexists i, src, _. split; [done|]. split; [done|].
  split; [reflexivity|].
  split; [by simplify_map_eq|]. split; [by simplify_map_eq|].
  exists p'. split; [done|]. by simplify_map_eq.
Qed.

End ListingFacts.

Section ListingProperties.
Context `{Driver}.

Implicit Types (c : gmap N JsObj) (o : JsObj) (d : Doc).

(** X2. A project that [publishProject] has just stored is in the list of
    [getPublishedProjects]. *)
Theorem published_is_listed now req c k d c' :
  publishProject now req c = (Next k (Some d), c') →
  ∃ ds, getPublishedProjects c' = (NextList "publishedProjects" ds, c') ∧ d ∈ ds.
Proof.
  intros E. exists (find c'). split; [reflexivity|].
  destruct (publish_cases now req c) as [(i & o & E' & Hp & _)|[err E']];
    rewrite E' in E; [|discriminate E].
  injection E as _ <- <-. apply elem_of_find. cbn.
  split; [by rewrite lookup_insert_eq|by apply is_published_true].
Qed.

(** X3. A project that [unpublishProject] has just unpublished is no longer
    listed, and the listing of every other project is what it was. *)
Theorem unpublished_is_unlisted req c k d c' :
  unpublishProject req c = (Next k (Some d), c') →
  (∀ d', d' ∈ find c' → doc_id d' ≠ doc_id d)
  ∧ (∀ d', doc_id d' ≠ doc_id d → d' ∈ find c' ↔ d' ∈ find c).
Proof.
  intros E.
  destruct (unpublish_cases req c) as [(i & o & _ & _ & _ & E')|[_ [err E']]];
    rewrite E' in E; [|discriminate E].
  injection E as _ <- <-. cbn [doc_id]. split.
  - intros d' Hin Heq. apply elem_of_find in Hin as [Hl Hp].
    rewrite Heq, lookup_insert_eq in Hl. injection Hl as Hl.
    rewrite <- Hl in Hp. apply is_published_true in Hp.
    rewrite lookup_insert_eq in Hp. discriminate Hp.
  - intros d' Hne. rewrite !elem_of_find. by rewrite lookup_insert_ne.
Qed.

(** X4. Cloning never changes the list of published projects: the clone is
    stored unpublished and no other document is touched. *)
Theorem clone_keeps_listing now req c d :
  d ∈ find (snd (cloneProject now req c)) ↔ d ∈ find c.
Proof.
  destruct (clone_cases now req c)
    as [(i & src & o & _ & _ & E & Hp & _)|[err E]]; rewrite E; cbn [snd]; [|done].
  rewrite !elem_of_find.
  destruct (decide (doc_id d = newObjectId c)) as [Heq|Hne].
  - rewrite Heq, lookup_insert_eq, newObjectId_fresh. split.
    + intros [Ho Hpub]. injection Ho as Ho. rewrite <- Ho in Hpub.
      apply is_published_true in Hpub. congruence.
    + by intros [? _].
  - by rewrite lookup_insert_ne.
Qed.

(** X5. The owner's unpublish request succeeds: the project is stored with
    [published] false, its other fields are unchanged, and so is every
    other document. *)
Theorem unpublish_by_owner req c i o a :
  castObjectId (get (body req) "_id") = Some i →
  c !! i = Some o →
  o !! "userId" = Some (JStr a) →
  cookies req !! "ssid" = Some a →
  ∃ d c',
    unpublishProject req c = (Next "unpublishedProject" (Some d), c')
    ∧ doc_id d = i
    ∧ c' !! i = Some (doc_fields d)
    ∧ doc_fields d !! "published" = Some (JBool false)
    ∧ (∀ k, k ≠ "published" → doc_fields d !! k = o !! k)
    ∧ (∀ j, j ≠ i → c' !! j = c !! j).
Proof.
  intros Hc Hi Ho Hs.
  destruct (unpublish_cases req c)
    as [(i' & o' & Hc' & Hi' & _ & E)|[[Hc'|(i' & Hc' & [Hi'|(o' & Hi' & Hm)])] _]];
    try congruence.
  - assert (i' = i) as -> by congruence. assert (o' = o) as -> by congruence.
    eexists _, _. split; [exact E|]. cbn [doc_id doc_fields].
    split; [done|]. split; [by rewrite lookup_insert_eq|].
    split; [by rewrite lookup_insert_eq|].
    split; intros x Hx; by rewrite lookup_insert_ne.
  - assert (i' = i) as -> by congruence. assert (o' = o) as -> by congruence.
    unfold userId_matches in Hm. rewrite Hs, Ho, String.eqb_refl in Hm.
    discriminate Hm.
Qed.

(** X6. Whatever the request, [unpublishProject] neither adds nor removes a
    document, and in the documents it changes nothing but [published]. *)
Theorem unpublish_touches_only_published req c :
  dom (snd (unpublishProject req c)) = dom c
  ∧ ∀ j o, c !! j = Some o →
           ∃ o', snd (unpublishProject req c) !! j = Some o'
                 ∧ ∀ k, k ≠ "published" → o' !! k = o !! k.
Proof.
  destruct (unpublish_cases req c) as [(i & o & _ & Hi & _ & E)|[_ [err E]]];
    rewrite E; cbn [snd].
  - split.
    + apply dom_insert_lookup_L. eauto.
    + intros j o' Hj. destruct (decide (i = j)) as [Heq|Hne].
      * subst j. pose proof (eq_trans (eq_sym Hi) Hj) as Ho. injection Ho as <-.
        rewrite lookup_insert_eq. eexists. split; [done|].
        intros k Hk. by rewrite lookup_insert_ne.
      * rewrite lookup_insert_ne by done. eauto.
  - split; [done|]. eauto.
Qed.

(** X7. For a request whose [_id] is a string or is absent (an object or an
    array there would be a query selector), [unpublishProject] succeeds
    exactly when the [_id] casts to the id of a persisted project whose
    [userId] is the session's; in every other case it ends in the error
    path with the collection untouched, and it never creates a document for
    an id that is not there. *)
Theorem unpublish_succeeds_iff req c :
  (∃ s, body req !! "_id" = Some (JStr s)) ∨ body req !! "_id" = None →
  ((∃ d c', unpublishProject req c = (Next "unpublishedProject" (Some d), c'))
   ↔ ∃ i o, castObjectId (get (body req) "_id") = Some i
            ∧ c !! i = Some o
            ∧ userId_matches o (cookies req !! "ssid") = true)
  ∧ ((∃ d c', unpublishProject req c = (Next "unpublishedProject" (Some d), c'))
     ∨ ∃ err, unpublishProject req c = (NextError err, c)).
Proof.
  intros _.
  destruct (unpublish_cases req c)
    as [(i & o & Hc & Hi & Hm & E)|[Hno [err E]]].
  - split; [|left; eauto]. split; eauto 10.
  - split; [|right; eauto]. split.
    + intros (d & c' & E'). rewrite E in E'. discriminate E'.
    + intros (i & o & Hc & Hi & Hm).
      destruct Hno as [Hc'|(i' & Hc' & [Hi'|(o' & Hi' & Hm')])]; congruence.
Qed.

(** X8. Unpublishing twice leaves the collection as unpublishing once. *)
Theorem unpublish_idempotent req c :
  snd (unpublishProject req (snd (unpublishProject req c)))
  = snd (unpublishProject req c).
Proof.
  destruct (unpublish_cases req c) as [(i & o & Hc & Hi & Hm & E)|[_ [err E]]];
    rewrite E; cbn [snd]; [|by rewrite E].
  set (o1 := <["published" := JBool false]> o).
  destruct (unpublish_cases req (<[i := o1]> c))
    as [(i' & o' & Hc' & Hi' & _ & E')|[Hno [err E']]]; rewrite E'; cbn [snd];
    [|done].
  assert (i' = i) as -> by congruence.
  rewrite lookup_insert_eq in Hi'. injection Hi' as <-.
  unfold o1. by rewrite !insert_insert_eq.
Qed.

End ListingProperties.

Section SequenceProperties.
Context `{Driver}.

Implicit Types (c : gmap N JsObj) (o : JsObj) (d : Doc).

(** A document whose [userId] was written from a session's cookie passes the
    owner condition of that session. *)
Lemma userId_matches_own o (s : option string) :
  o !! "userId" = Some (str_or_undefined s) → userId_matches o s = true.
Proof.
  intros Ho. unfold userId_matches. rewrite Ho.
  destruct s as [a|]; cbn; [apply String.eqb_refl|done].
Qed.

(** X9. Whatever the request, [publishProject] writes at most one document:
    there is an id outside of which the collection is unchanged, and no
    document is removed. *)
Theorem publish_writes_one_document now req c :
  (∃ i, ∀ j, j ≠ i → snd (publishProject now req c) !! j = c !! j)
  ∧ dom c ⊆ dom (snd (publishProject now req c)).
Proof.
  destruct (publish_cases now req c) as [(i & o & E & _)|[err E]];
    rewrite E; cbn [snd].
  - split; [exists i; intros j Hj; by rewrite lookup_insert_ne|].
    rewrite dom_insert_L. set_solver.
  - split; [exists 0%N; done|done].
Qed.

(** X10. Publishing under the id of a persisted project sets [createdAt]
    to the time of the request, writes [name], [comments], [userId] and
    [username] where the request has a value for them and keeps the stored
    ones where it has none, and keeps every other field of the stored
    document, such as its [forked] tag. *)
Theorem republish_keeps_other_fields now req c i old :
  isValidObjectId (get (body req) "_id") = true →
  castObjectId (get (body req) "_id") = Some i →
  c !! i = Some old →
  ∃ d c',
    publishProject now req c = (Next "publishedProject" (Some d), c')
    ∧ doc_id d = i
    ∧ doc_fields d !! "createdAt" = Some (JNum now)
    ∧ doc_fields d !! "name" = written (get (body req) "name") (old !! "name")
    ∧ doc_fields d !! "comments"
      = written (get (body req) "comments") (old !! "comments")
    ∧ doc_fields d !! "userId"
      = written (str_or_undefined (cookies req !! "ssid")) (old !! "userId")
    ∧ doc_fields d !! "username"
      = written (str_or_undefined (cookies req !! "username")) (old !! "username")
    ∧ ∀ k, k ∉ ["project"; "createdAt"; "published"; "comments"; "name";
                "userId"; "username"] →
           doc_fields d !! k = old !! k.
Proof.
  intros Hv Hc Hi. rewrite (publish_update now req c i Hv Hc). cbv zeta.
  rewrite Hi. eexists _, _. split; [reflexivity|]. cbn [doc_id doc_fields].
  split; [done|].
  split; [eapply update_sets; [apply published_fields_createdAt|done]|].
  split; [by rewrite update_lookup, published_fields_name|].
  split; [by rewrite update_lookup, published_fields_comments|].
  split; [by rewrite update_lookup, published_fields_userId|].
  split; [by rewrite update_lookup, published_fields_username|].
  intros k Hk. by rewrite update_lookup, published_fields_other.
Qed.

(** X11. Whoever published a project under a session can unpublish it: after
    a successful [publishProject] by a request with an [ssid] cookie, an
    unpublish request with the same cookie and the id of the published
    document succeeds and stores it unpublished. *)
Theorem publisher_can_unpublish now req c k d c' req' a :
  cookies req !! "ssid" = Some a →
  publishProject now req c = (Next k (Some d), c') →
  castObjectId (get (body req') "_id") = Some (doc_id d) →
  cookies req' !! "ssid" = Some a →
  ∃ d' c'',
    unpublishProject req' c' = (Next "unpublishedProject" (Some d'), c'')
    ∧ doc_id d' = doc_id d
    ∧ c'' !! doc_id d = Some (doc_fields d')
    ∧ doc_fields d' !! "published" = Some (JBool false)
    ∧ ∀ x, x ≠ "published" → doc_fields d' !! x = doc_fields d !! x.
Proof.
  intros Ha E Hc Hs.
  destruct (publish_cases now req c) as [(i & o & E' & _ & Hu & _)|[err E']];
    rewrite E' in E; [|discriminate E].
  injection E as _ <- <-. cbn [doc_id doc_fields] in *.
  specialize (Hu a Ha).
  destruct (unpublish_cases req' (<[i := o]> c))
    as [(i' & o' & Hc' & Hi' & _ & E)|[[Hc'|(i' & Hc' & [Hi'|(o' & Hi' & Hm)])] _]].
  - assert (i' = i) as -> by congruence.
    rewrite lookup_insert_eq in Hi'. injection Hi' as <-.
    eexists _, _. split; [exact E|]. cbn [doc_id doc_fields].
    split; [done|]. split; [by rewrite lookup_insert_eq|].
    split; [by rewrite lookup_insert_eq|].
    intros x Hx. by rewrite lookup_insert_ne.
  - congruence.
  - assert (i' = i) as -> by congruence.
    rewrite lookup_insert_eq in Hi'. discriminate Hi'.
  - assert (i' = i) as -> by congruence.
    rewrite lookup_insert_eq in Hi'. injection Hi' as <-.
    rewrite Hs, (userId_matches_own o (Some a) Hu) in Hm. discriminate Hm.
Qed.

(** X12. [cloneProject] ends in the error path, and stores nothing, when
    the [docId] of the route cannot be cast, when it names no persisted
    project, and when the project found has no [project] sub-document or a
    null one. *)
Theorem clone_of_missing_fails now req c :
  (castObjectId (str_or_undefined (params req !! "docId")) = None
   ∨ ∃ i, castObjectId (str_or_undefined (params req !! "docId")) = Some i
          ∧ (c !! i = None
             ∨ ∃ src, c !! i = Some src
                      ∧ (src !! "project" = None ∨ src !! "project" = Some JNull))) →
  ∃ err, cloneProject now req c = (NextError err, c).
Proof.
  intros Hno.
  destruct (clone_cases now req c)
    as [(i & src & o & Hc & Hi & E & _ & _ & p' & Hp & _)|[err E]]; [|eauto].
  exfalso.
  destruct Hno as [Hc'|(i' & Hc' & [Hi'|(src' & Hi' & Hp')])]; [congruence| |].
  - assert (i' = i) as -> by congruence. congruence.
  - assert (i' = i) as -> by congruence.
    assert (src' = src) as -> by congruence.
    unfold get in Hp. by destruct Hp' as [Hp'|Hp']; rewrite Hp' in Hp.
Qed.

End SequenceProperties.

Section RunProperties.
Context `{Driver}.

Implicit Types (c : gmap N JsObj) (o : JsObj) (op : Op).

Lemma objects_insert c i o (p : JsObj) :
  projects_are_objects c → o !! "project" = Some (JObj p) →
  projects_are_objects (<[i := o]> c).
Proof.
  intros Hc Ho j o' Hj. destruct (decide (i = j)) as [Heq|Hne].
  - subst j. rewrite lookup_insert_eq in Hj. injection Hj as <-. eauto.
  - rewrite lookup_insert_ne in Hj by done. eauto.
Qed.

(** Each request keeps the [project] sub-documents objects. *)
Lemma step_keeps_objects c op :
  projects_are_objects c → projects_are_objects (step c op).
Proof.
  intros Hc. destruct op as [|now req|req|now req]; cbn [step].
  - done.
  - destruct (publish_cases now req c) as [(i & o & E & _ & _ & p & Hp)|[err E]];
      rewrite E; cbn [snd]; [|done].
    by eapply objects_insert.
  - destruct (unpublish_cases req c) as [(i & o & _ & Hi & _ & E)|[_ [err E]]];
      rewrite E; cbn [snd]; [|done].
    destruct (Hc i o Hi) as [p Hp].
    eapply (objects_insert _ _ _ p); [done|]. by rewrite lookup_insert_ne.
  - destruct (clone_cases now req c)
      as [(i & src & o & _ & Hi & E & _ & _ & p' & Hs & Hp)|[err E]];
      rewrite E; cbn [snd]; [|done].
    destruct (Hc i src Hi) as [p Hsrc].
    unfold get in Hs. rewrite Hsrc in Hs. cbn in Hs. injection Hs as <-.
    by eapply objects_insert.
Qed.

Lemma run_keeps_objects ops c :
  projects_are_objects c → projects_are_objects (run c ops).
Proof.
  revert c. induction ops as [|op ops IH]; intros c Hc; [done|].
  cbn. apply IH. by apply step_keeps_objects.
Qed.

Lemma step_keeps_documents c op : dom c ⊆ dom (step c op).
Proof.
  destruct op as [|now req|req|now req]; cbn [step].
  - done.
  - destruct (publish_cases now req c) as [(i & o & E & _)|[err E]];
      rewrite E; cbn [snd]; [|done].
    rewrite dom_insert_L. set_solver.
  - destruct (unpublish_cases req c) as [(i & o & _ & Hi & _ & E)|[_ [err E]]];
      rewrite E; cbn [snd]; [|done].
    rewrite dom_insert_L. set_solver.
  - destruct (clone_cases now req c) as [(i & src & o & _ & _ & E & _)|[err E]];
      rewrite E; cbn [snd]; [|done].
    rewrite dom_insert_L. set_solver.
Qed.

(** X13. In a collection that the controller has built from nothing, by
    any sequence of requests, every [project] sub-document is an object,
    and so cloning a project that is there always succeeds. *)
Theorem clone_succeeds_after_any_run ops now req i :
  castObjectId (str_or_undefined (params req !! "docId")) = Some i →
  is_Some (run ∅ ops !! i) →
  projects_are_objects (run ∅ ops)
  ∧ ∃ clone c',
      cloneProject now req (run ∅ ops) = (Next "clonedProject" (Some clone), c')
      ∧ c' !! i = run ∅ ops !! i
      ∧ c' !! doc_id clone = Some (doc_fields clone).
Proof.
  intros Hc [src Hi].
  assert (Hobj : projects_are_objects (run ∅ ops)).
  { apply run_keeps_objects. intros j o Hj. by rewrite lookup_empty in Hj. }
  split; [done|].
  destruct (Hobj i src Hi) as [p Hp].
  rewrite (clone_found now req _ i src p Hc Hi Hp). cbv zeta.
  eexists _, _. split; [reflexivity|]. cbn [doc_id doc_fields].
  split; [|by rewrite lookup_insert_eq].
  rewrite lookup_insert_ne; [done|].
  intros Heq. pose proof (newObjectId_fresh (run ∅ ops)) as Hf.
  rewrite Heq in Hf. rewrite Hf in Hi. discriminate Hi.
Qed.

(** X14. No sequence of requests to the controller removes a project: an
    id that is in the collection stays in it. *)
Theorem run_never_deletes ops c i :
  is_Some (c !! i) → is_Some (run c ops !! i).
Proof.
  revert c. induction ops as [|op ops IH]; intros c Hi; [done|].
  cbn. apply IH. apply elem_of_dom. apply (step_keeps_documents c op).
  by apply elem_of_dom.
Qed.

End RunProperties.

(** ** The further properties on the concrete collection *)

(** alice's new project is listed once published. *)
Lemma published_is_listed_witness :
  ∃ d c' ds,
    publishProject 100 first_publish projects = (Next "publishedProject" (Some d), c')
    ∧ getPublishedProjects c' = (NextList "publishedProjects" ds, c')
    ∧ d ∈ ds.
Proof.
  pose proof (publish_create 100 first_publish projects) as E.
  cbv zeta in E. specialize (E ltac:(vm_compute; reflexivity)).
  destruct (published_is_listed _ _ _ _ _ _ E) as (ds & Hds & Hin).
  eexists _, _, ds. split; [exact E|]. split; [exact Hds|exact Hin].
Defined.

(** alice's project is not listed after she unpublished it. *)
Lemma unpublished_is_unlisted_witness :
  ∃ d c',
    unpublishProject alice_unpublish projects = (Next "unpublishedProject" (Some d), c')
    ∧ ∀ d', d' ∈ find c' → doc_id d' ≠ doc_id d.
Proof.
  destruct (unpublish_cases alice_unpublish projects)
    as [(i & o & _ & _ & _ & E)|[Hno _]].
  - eexists _, _. split; [exact E|].
    apply (unpublished_is_unlisted alice_unpublish projects _ _ _ E).
  - exfalso. destruct Hno as [Hc|(i & Hc & Hno)].
    + vm_compute in Hc. discriminate Hc.
    + vm_compute in Hc. injection Hc as <-.
      unfold projects in Hno. rewrite lookup_singleton_eq in Hno.
      destruct Hno as [Hi|(o & Hi & Hm)]; [discriminate Hi|].
      injection Hi as <-. vm_compute in Hm. discriminate Hm.
Defined.

(** alice unpublishes her own project. *)
Lemma unpublish_by_owner_witness :
  ∃ d c',
    unpublishProject alice_unpublish projects = (Next "unpublishedProject" (Some d), c')
    ∧ doc_id d = 10%N
    ∧ doc_fields d !! "published" = Some (JBool false).
Proof.
  destruct (unpublish_by_owner alice_unpublish projects 10%N alice_project "A")
    as (d & c' & E & Hid & _ & Hp & _).
  - vm_compute; reflexivity.
  - vm_compute; reflexivity.
  - vm_compute; reflexivity.
  - vm_compute; reflexivity.
  - exists d, c'. split; [exact E|]. split; [exact Hid|exact Hp].
Defined.

(** bob's request carries a string: it succeeds exactly when the project is
    bob's, which alice's is not. *)
Lemma unpublish_succeeds_iff_witness :
  (∃ d c', unpublishProject bob_unpublish projects
           = (Next "unpublishedProject" (Some d), c'))
  ↔ ∃ i o, castObjectId (get (body bob_unpublish) "_id") = Some i
           ∧ projects !! i = Some o
           ∧ userId_matches o (cookies bob_unpublish !! "ssid") = true.
Proof.
  apply (unpublish_succeeds_iff bob_unpublish projects).
  left. eexists. vm_compute; reflexivity.
Defined.

(** alice publishes her saved project again with the project alone: the
    time is the request's, the name and the user name are the stored ones. *)
Lemma republish_keeps_other_fields_witness :
  ∃ d c',
    publishProject 200 alice_republish_bare projects
    = (Next "publishedProject" (Some d), c')
    ∧ doc_fields d !! "createdAt" = Some (JNum 200)
    ∧ doc_fields d !! "name" = Some (JStr "shop")
    ∧ doc_fields d !! "username" = Some (JStr "alice").
Proof.
  destruct (republish_keeps_other_fields 200 alice_republish_bare projects 10%N
              alice_project)
    as (d & c' & E & _ & Hat & Hn & _ & _ & Hun & _).
  - vm_compute; reflexivity.
  - vm_compute; reflexivity.
  - vm_compute; reflexivity.
  - exists d, c'. split; [exact E|]. split; [exact Hat|].
    split; [rewrite Hn|rewrite Hun]; vm_compute; reflexivity.
Defined.

(** alice publishes a new project and unpublishes it. *)
Lemma publisher_can_unpublish_witness :
  ∃ d c' d' c'',
    publishProject 100 first_publish projects = (Next "publishedProject" (Some d), c')
    ∧ unpublishProject alice_unpublish_new c' = (Next "unpublishedProject" (Some d'), c'')
    ∧ doc_id d' = doc_id d
    ∧ doc_fields d' !! "published" = Some (JBool false).
Proof.
  pose proof (publish_create 100 first_publish projects) as E.
  cbv zeta in E. specialize (E ltac:(vm_compute; reflexivity)).
  assert (Ha : cookies first_publish !! "ssid" = Some "A")
    by (vm_compute; reflexivity).
  destruct (publisher_can_unpublish 100 first_publish projects _ _ _
              alice_unpublish_new "A" Ha E)
    as (d' & c'' & E' & Hid & _ & Hp & _).
  - vm_compute; reflexivity.
  - vm_compute; reflexivity.
  - eexists _, _, d', c''. split; [exact E|]. split; [exact E'|].
    split; [exact Hid|exact Hp].
Defined.

(** bob's clone of a project that is not there, and of a garbled id. *)
Lemma clone_of_missing_fails_witness :
  (∃ err, cloneProject 200 bob_clone_missing projects = (NextError err, projects))
  ∧ (∃ err, cloneProject 200 bob_clone_garbled projects = (NextError err, projects)).
Proof.
  split; apply clone_of_missing_fails.
  - right. exists 12%N. split; [vm_compute; reflexivity|].
    left. vm_compute; reflexivity.
  - left. vm_compute; reflexivity.
Defined.

(** After alice's publication and bob's clone, bob can clone the first
    project again. *)
Lemma clone_succeeds_after_any_run_witness :
  ∃ clone c',
    cloneProject 200 bob_clone_first (run ∅ session)
    = (Next "clonedProject" (Some clone), c')
    ∧ c' !! doc_id clone = Some (doc_fields clone).
Proof.
  destruct (clone_succeeds_after_any_run session 200 bob_clone_first 0%N)
    as (_ & clone & c' & E & _ & Hc).
  - vm_compute; reflexivity.
  - vm_compute. eexists. reflexivity.
  - exists clone, c'. split; [exact E|exact Hc].
Defined.

(** alice's project is still there after bob's session. *)
Lemma run_never_deletes_witness : is_Some (run projects bob_session !! 10%N).
Proof.
  apply (run_never_deletes bob_session projects 10%N).
  vm_compute. eexists. reflexivity.
Defined.

(** * Further properties of the HTML panel item *)

Section PanelMoreFacts.

Implicit Types (p : Props) (c : Client) (g : Gesture).

(** [handleClick] leaves the modal and the deletions alone. *)
Lemma handleClick_keeps_modal n rc c :
  modal (fold_left run_effect (handleClick n rc) c) = modal c
  ∧ deletions (fold_left run_effect (handleClick n rc) c) = deletions c.
Proof. unfold handleClick. by destruct (truthy_str rc). Qed.

(** One gesture on an item whose dialog, if open, is its own: the dialog
    stays its own, and at most the item's id is added to the deletions. *)
Lemma own_dialog_step p c g :
  modal c = NoModal ∨ modal c = DeleteModal (id p) →
  (modal (perform p c g) = NoModal ∨ modal (perform p c g) = DeleteModal (id p))
  ∧ (deletions (perform p c g) = deletions c
     ∨ deletions (perform p c g) = deletions c ++ [id p]).
Proof.
  intros Hm. unfold perform.
  destruct (gesture_effects_cases p (roomCode c) (modal c) g)
    as [E|[E|[[_ E]|(k & Hk & [E|[E|[E|E]]])]]]; cbv zeta in E; rewrite E; clear E.
  - cbn. auto.
  - destruct (handleClick_keeps_modal (id p) (roomCode c) c) as [-> ->]. auto.
  - cbn [fold_left].
    destruct (handleClick_keeps_modal (id p) (roomCode c)
                (run_effect c (SetModal (DeleteModal (id p))))) as [-> ->].
    cbn. auto.
  - assert (k = id p) as -> by (destruct Hm; congruence). cbn. auto.
  - assert (k = id p) as -> by (destruct Hm; congruence). cbn. auto.
  - cbn. auto.
  - cbn. auto.
Qed.

(** A click on the delete button of a custom element: the handler of the
    button, then the handler of the [div]. *)
Lemma button_click_effects p rc m :
  20 < id p →
  gesture_effects (render p rc m) ClickButton
  = SetModal (DeleteModal (id p)) :: handleClick (id p) rc.
Proof.
  intros Hgt. unfold gesture_effects, render, panel_div. cbn.
  destruct (Z.leb_spec (id p) 20), (Z.gtb_spec (id p) 20); try lia. done.
Qed.

End PanelMoreFacts.

Section PanelMoreProperties.

Implicit Types (p : Props) (c : Client) (g : Gesture).

(** X15. A room code that is falsy, null or the empty string, counts as no
    room: no gesture emits anything. *)
Theorem falsy_room_emits_nothing p rc m g :
  truthy_str rc = false →
  emitted (gesture_effects (render p rc m) g) = [].
Proof.
  intros Hf.
  destruct (gesture_effects_cases p rc m g)
    as [E|[E|[[_ E]|(k & _ & [E|[E|[E|E]]])]]]; cbv zeta in E; rewrite E; clear E;
    try done; unfold handleClick; by rewrite Hf.
Qed.

(** X16. On a custom element, a click on the delete button opens the
    confirmation dialog and then, bubbling to the [div] around the button,
    runs [handleClick]: it also dispatches an [addChild] for the element. *)
Theorem delete_button_click_also_adds_child p rc m :
  20 < id p →
  gesture_effects (render p rc m) ClickButton
  = SetModal (DeleteModal (id p)) :: handleClick (id p) rc
  ∧ dispatched (gesture_effects (render p rc m) ClickButton)
    = [AddChild (MkChildData "HTML Element" (id p) None (MkContext []))].
Proof.
  intros Hgt. pose proof (button_click_effects p rc m Hgt) as E.
  split; [done|]. rewrite E. unfold handleClick. by destruct (truthy_str rc).
Qed.

(** X17. Starting from an item whose dialog is closed or is its own, no
    sequence of gestures asks the parent to delete any id but the item's. *)
Theorem only_own_id_deleted p gs c k :
  modal c = NoModal ∨ modal c = DeleteModal (id p) →
  k ∈ deletions (perform_all p c gs) →
  k ∈ deletions c ∨ k = id p.
Proof.
  revert c. induction gs as [|g gs IH]; intros c Hm Hk; [by left|].
  cbn in Hk. destruct (own_dialog_step p c g Hm) as [Hm' Hd].
  destruct (IH _ Hm' Hk) as [Hin|Heq]; [|by right].
  destruct Hd as [Hd|Hd]; rewrite Hd in Hin; [by left|].
  apply elem_of_app in Hin as [Hin|Hin]; [by left|].
  apply list_elem_of_singleton in Hin. by right.
Qed.

(** X18. What a gesture dispatches to the local store does not depend on
    the room code. *)
Theorem dispatch_independent_of_room p rc rc' m g :
  dispatched (gesture_effects (render p rc m) g)
  = dispatched (gesture_effects (render p rc' m) g).
Proof.
  unfold gesture_effects, render, panel_div, handleClick. cbn.
  destruct g as [| |n|n]; try done;
    destruct (id p <=? 20), (id p >? 20), (truthy_str rc), (truthy_str rc'); done.
Qed.

(** X19. Every element of the panel, built-in or custom and whatever its
    id, can be added by a click: the click on its [div] dispatches exactly
    one [addChild], for that element. *)
Theorem click_adds_the_element p rc m :
  dispatched (gesture_effects (render p rc m) ClickDiv)
  = [AddChild (MkChildData "HTML Element" (id p) None (MkContext []))].
Proof.
  unfold gesture_effects, render, panel_div, handleClick. cbn.
  destruct (Z.leb_spec (id p) 20), (Z.gtb_spec (id p) 20); try lia;
    by destruct (truthy_str rc).
Qed.

(** X20. On a custom element with the dialog closed: the button and then the
    text of the first entry close the dialog again and ask for one deletion,
    of the element's id; the button and then the text of the second entry
    close the dialog and ask for none. *)
Theorem dialog_confirm_and_decline p c :
  20 < id p →
  modal c = NoModal →
  (modal (perform_all p c [ClickButton; ClickItemText 0]) = NoModal
   ∧ deletions (perform_all p c [ClickButton; ClickItemText 0])
     = deletions c ++ [id p])
  ∧ (modal (perform_all p c [ClickButton; ClickItemText 1]) = NoModal
     ∧ deletions (perform_all p c [ClickButton; ClickItemText 1]) = deletions c).
Proof.
  intros Hgt Hm. unfold perform_all. cbn [fold_left].
  assert (E1 : modal (perform p c ClickButton) = DeleteModal (id p)
               ∧ deletions (perform p c ClickButton) = deletions c).
  { unfold perform. rewrite (button_click_effects p (roomCode c) (modal c) Hgt).
    cbn [fold_left].
    destruct (handleClick_keeps_modal (id p) (roomCode c)
                (run_effect c (SetModal (DeleteModal (id p))))) as [-> ->].
    done. }
  destruct E1 as [E1 E2]. generalize dependent (perform p c ClickButton).
  intros c1 E1 E2.
  unfold perform, gesture_effects, render. rewrite E1. cbn. by rewrite E2.
Qed.

(** X21. A gesture emits at most one event and dispatches at most one
    action, and an event it emits is named "addChildAction". *)
Theorem at_most_one_event_per_gesture p rc m g :
  (length (emitted (gesture_effects (render p rc m) g)) ≤ 1)%nat
  ∧ (length (dispatched (gesture_effects (render p rc m) g)) ≤ 1)%nat
  ∧ ∀ ev r d, (ev, r, d) ∈ emitted (gesture_effects (render p rc m) g) →
              ev = "addChildAction".
Proof.
  destruct (gesture_effects_cases p rc m g)
    as [E|[E|[[_ E]|(k & _ & [E|[E|[E|E]]])]]]; cbv zeta in E; rewrite E; clear E;
    unfold handleClick; try destruct (truthy_str rc); cbn;
    (split; [lia|split; [lia|]]); intros ev r d Hin;
    first [ by apply elem_of_nil in Hin
          | apply list_elem_of_singleton in Hin; by injection Hin as -> _ _ ].
Qed.

(** X22. With the dialog open: a click on the first entry outside its text
    asks for the deletion and leaves the dialog open, a click on its text
    asks for the deletion and closes the dialog; a click on the second
    entry, on its text or beside it, closes the dialog and asks for no
    deletion. *)
Theorem entry_click_leaves_dialog_open p c k :
  modal c = DeleteModal k →
  (modal (perform p c (ClickItem 0)) = DeleteModal k
   ∧ deletions (perform p c (ClickItem 0)) = deletions c ++ [k])
  ∧ (modal (perform p c (ClickItemText 0)) = NoModal
     ∧ deletions (perform p c (ClickItemText 0)) = deletions c ++ [k])
  ∧ (modal (perform p c (ClickItem 1)) = NoModal
     ∧ deletions (perform p c (ClickItem 1)) = deletions c)
  ∧ (modal (perform p c (ClickItemText 1)) = NoModal
     ∧ deletions (perform p c (ClickItemText 1)) = deletions c).
Proof.
  intros Hm. unfold perform, gesture_effects, render. rewrite Hm. by cbn.
Qed.

End PanelMoreProperties.

(** ** The further properties of the panel item on concrete clients *)

(** An empty room code. *)
Lemma falsy_room_emits_nothing_witness :
  emitted (gesture_effects (render div_item (Some "") NoModal) ClickDiv) = [].
Proof.
  apply (falsy_room_emits_nothing div_item (Some "") NoModal ClickDiv). reflexivity.
Defined.

(** The delete button of "Card" in the room "r1". *)
Lemma delete_button_click_also_adds_child_witness :
  dispatched (gesture_effects (render card_item (Some "r1") NoModal) ClickButton)
  = [AddChild (MkChildData "HTML Element" 21 None (MkContext []))].
Proof.
  apply (delete_button_click_also_adds_child card_item (Some "r1") NoModal).
  reflexivity.
Defined.

(** Open the dialog of "Card", confirm, open it again, confirm beside the
    text. *)
Lemma only_own_id_deleted_witness :
  21 ∈ deletions solo ∨ 21 = id card_item.
Proof.
  apply (only_own_id_deleted card_item
           [ClickButton; ClickItemText 0; ClickButton; ClickItem 0] solo 21).
  - left. reflexivity.
  - vm_compute. constructor.
Defined.

(** The dialog of "Card" on a client that edits alone. *)
Lemma dialog_confirm_and_decline_witness :
  deletions (perform_all card_item solo [ClickButton; ClickItemText 0]) = [21]
  ∧ deletions (perform_all card_item solo [ClickButton; ClickItemText 1]) = [].
Proof.
  destruct (dialog_confirm_and_decline card_item solo) as [[_ H1] [_ H2]].
  - reflexivity.
  - reflexivity.
  - split; [exact H1|exact H2].
Defined.

(** The open dialog of "Card": a click beside the text of the first entry,
    and a click beside the text of the second. *)
Lemma entry_click_leaves_dialog_open_witness :
  modal (perform card_item (MkClient empty_tree None (DeleteModal 21) [] [])
           (ClickItem 0)) = DeleteModal 21
  ∧ modal (perform card_item (MkClient empty_tree None (DeleteModal 21) [] [])
             (ClickItem 1)) = NoModal.
Proof.
  destruct (entry_click_leaves_dialog_open card_item
              (MkClient empty_tree None (DeleteModal 21) [] []) 21)
    as ([H0 _] & _ & [H1 _] & _).
  - reflexivity.
  - split; [exact H0|exact H1].
Defined.
